(** * EffectivePomodoro: the session controller of [pomodoro_logic.py]

    A shallow embedding of the class [PomodoroTimer] and of the one GUI
    handler that drives it ([PomodoroApp.toggle_timer]), followed by the
    properties of the period state machine.

    Modelling conventions.
    - Python [int] is [Z]; [divmod] and [%] by a positive constant are
      [Z.div] and [Z.modulo] (both round toward minus infinity).
    - A Python [float] is kept as the rational number it stands for, the
      two zeros not told apart.  The quotient [a / b] of two ints is the
      binary64 number nearest to the exact quotient, ties to even, as the
      interpreter computes it; it raises [ZeroDivisionError] when [b] is
      [0] and [OverflowError] when the quotient is beyond the binary64
      range.  A [float] subtraction rounds its exact result the same way.
    - Methods mutate [self] and may raise after having mutated it, so a
      method is a function from the world to an outcome and the world the
      call leaves behind.
    - Qt signals are appended to a log, oldest first.  [time.ctime()] reads
      a clock that [time.sleep] advances.  [Thread(...).start()] is counted.
    - [timer_lock] is a flag of the world.  A thread that meets it taken
      at a [with timer_lock:] is blocked there: the call stops with the
      outcome [Blocked], in the world it has reached, and goes on from the
      [with] statement once the lock is free.  A thread is followed either
      from its start to its end ([run_timer]) or one loop iteration at a
      time between calls from the GUI ([tick]); interleavings inside one
      method are not represented. *)

From Stdlib Require Import ZArith QArith Qround Qpower Lqa.
From Stdlib Require Import Bool List String DecimalString Lia.
Import ListNotations.
Open Scope Z_scope.

(** ** Data model *)

(** An element of [session_history]: the dict
    [{"type": ..., "timestamp": ..., "goal": ...}]. *)
Record Session : Type := mkSession {
  s_type : string;
  s_timestamp : Z;
  s_goal : string
}.

(** The [pyqtSignal]s of the class, with their payloads. *)
Inductive Signal : Type :=
| update_signal (time_str : string) (time_fraction : Q)
| finish_signal
| session_change_signal (session_type : string)
| reset_goal_signal
| notify_user_signal.

(** The attributes set by [__init__]. *)
Record PomodoroTimer : Type := mkTimer {
  work_duration : Z;
  short_break_duration : Z;
  long_break_duration : Z;
  is_running : bool;
  goal : string;
  session_history : list Session;
  current_time : Z;
  is_work_period : bool;
  session_count : Z
}.

(** Attribute assignment, one function per attribute the code assigns. *)
Definition set_work_duration (v : Z) (t : PomodoroTimer) : PomodoroTimer :=
  mkTimer v (short_break_duration t) (long_break_duration t) (is_running t)
          (goal t) (session_history t) (current_time t) (is_work_period t)
          (session_count t).

Definition set_short_break_duration (v : Z) (t : PomodoroTimer) : PomodoroTimer :=
  mkTimer (work_duration t) v (long_break_duration t) (is_running t)
          (goal t) (session_history t) (current_time t) (is_work_period t)
          (session_count t).

Definition set_long_break_duration (v : Z) (t : PomodoroTimer) : PomodoroTimer :=
  mkTimer (work_duration t) (short_break_duration t) v (is_running t)
          (goal t) (session_history t) (current_time t) (is_work_period t)
          (session_count t).

Definition set_is_running (v : bool) (t : PomodoroTimer) : PomodoroTimer :=
  mkTimer (work_duration t) (short_break_duration t) (long_break_duration t) v
          (goal t) (session_history t) (current_time t) (is_work_period t)
          (session_count t).

Definition set_goal (v : string) (t : PomodoroTimer) : PomodoroTimer :=
  mkTimer (work_duration t) (short_break_duration t) (long_break_duration t)
          (is_running t) v (session_history t) (current_time t)
          (is_work_period t) (session_count t).

Definition set_session_history (v : list Session) (t : PomodoroTimer) : PomodoroTimer :=
  mkTimer (work_duration t) (short_break_duration t) (long_break_duration t)
          (is_running t) (goal t) v (current_time t) (is_work_period t)
          (session_count t).

Definition set_current_time (v : Z) (t : PomodoroTimer) : PomodoroTimer :=
  mkTimer (work_duration t) (short_break_duration t) (long_break_duration t)
          (is_running t) (goal t) (session_history t) v (is_work_period t)
          (session_count t).

Definition set_is_work_period (v : bool) (t : PomodoroTimer) : PomodoroTimer :=
  mkTimer (work_duration t) (short_break_duration t) (long_break_duration t)
          (is_running t) (goal t) (session_history t) (current_time t) v
          (session_count t).

Definition set_session_count (v : Z) (t : PomodoroTimer) : PomodoroTimer :=
  mkTimer (work_duration t) (short_break_duration t) (long_break_duration t)
          (is_running t) (goal t) (session_history t) (current_time t)
          (is_work_period t) v.

(** Everything a method call can read or change: the object, the signals
    emitted so far (oldest first), the number of [run_timer] threads started
    so far, the wall clock in seconds, and whether [timer_lock] is taken. *)
Record World : Type := mkWorld {
  self : PomodoroTimer;
  emitted : list Signal;
  started : nat;
  clock : Z;
  locked : bool
}.

(** ** Methods as computations that may raise *)

Inductive Exception : Type :=
| TypeError
| ZeroDivisionError
| OverflowError.

(** How a call ends: it returns, it raises, or it is stopped at a
    [with timer_lock:] whose lock another thread holds. *)
Inductive Outcome (A : Type) : Type :=
| Returned (a : A)
| Raised (e : Exception)
| Blocked.

Arguments Returned {A} a.
Arguments Raised {A} e.
Arguments Blocked {A}.

Definition M (A : Type) : Type := World -> Outcome A * World.

Definition ret {A : Type} (a : A) : M A := fun w => (Returned a, w).

Definition raise {A : Type} (e : Exception) : M A := fun w => (Raised e, w).

Definition bind {A B : Type} (m : M A) (k : A -> M B) : M B :=
  fun w =>
    match m w with
    | (Returned a, w') => k a w'
    | (Raised e, w') => (Raised e, w')
    | (Blocked, w') => (Blocked, w')
    end.

Declare Scope py_scope.
Delimit Scope py_scope with py.
Notation "x <- m ;; k" := (bind m (fun x => k))
  (at level 61, m at next level, right associativity) : py_scope.
Notation "m ;; k" := (bind m (fun _ => k))
  (at level 61, right associativity) : py_scope.
Open Scope py_scope.

(** The world a call leaves behind, however it ended. *)
Definition exec {A : Type} (m : M A) (w : World) : World := snd (m w).

Definition get_self : M PomodoroTimer := fun w => (Returned (self w), w).

Definition modify_self (f : PomodoroTimer -> PomodoroTimer) : M unit :=
  fun w => (Returned tt,
            mkWorld (f (self w)) (emitted w) (started w) (clock w) (locked w)).

(** [signal.emit(...)] *)
Definition emit (s : Signal) : M unit :=
  fun w => (Returned tt,
            mkWorld (self w) (emitted w ++ [s]) (started w) (clock w) (locked w)).

(** [Thread(target=self.run_timer).start()] *)
Definition thread_start : M unit :=
  fun w => (Returned tt,
            mkWorld (self w) (emitted w) (S (started w)) (clock w) (locked w)).

(** [time.ctime()], kept as the clock reading it formats. *)
Definition time_ctime : M Z := fun w => (Returned (clock w), w).

(** [time.sleep(n)] *)
Definition time_sleep (n : Z) : M unit :=
  fun w => (Returned tt,
            mkWorld (self w) (emitted w) (started w) (clock w + n) (locked w)).

(** Taking and giving back [timer_lock]. *)
Definition set_locked (v : bool) (w : World) : World :=
  mkWorld (self w) (emitted w) (started w) (clock w) v.

Definition acquire : M unit :=
  fun w => if locked w then (Blocked, w) else (Returned tt, set_locked true w).

Definition release : M unit :=
  fun w => (Returned tt, set_locked false w).

(** [with timer_lock: m]: the lock is given back however [m] ends. *)
Definition with_timer_lock {A : Type} (m : M A) : M A :=
  fun w =>
    match acquire w with
    | (Returned _, w1) => let (o, w2) := m w1 in (o, set_locked false w2)
    | (Raised e, w1) => (Raised e, w1)
    | (Blocked, w1) => (Blocked, w1)
    end.

(** *** Binary64 numbers *)

(** [2 ** e] for any integer [e]. *)
Definition two_to (e : Z) : Q := (2 ^ e)%Q.

(** The integer nearest to [m], the even one of the two when [m] is half
    way. *)
Definition round_half_even (m : Q) : Z :=
  let f := Qfloor m in
  match (m - inject_Z f ?= 1 # 2)%Q with
  | Lt => f
  | Eq => if Z.even f then f else f + 1
  | Gt => f + 1
  end.

(** For positive [q], the exponent [e] with [2 ** e <= q < 2 ** (e + 1)]. *)
Definition binade (q : Q) : Z :=
  let e0 := Z.log2 (Qnum q) - Z.log2 (Zpos (Qden q)) in
  if Qle_bool (two_to e0) q then e0 else e0 - 1.

(** The multiple of [2 ** u] nearest to [q], ties to the even multiple. *)
Definition round_at (u : Z) (q : Q) : Q :=
  Qred (inject_Z (round_half_even (q / two_to u)) * two_to u).

(** The exponent of the unit in the last place of the binary64 numbers
    around a positive [q]: 53 bits from the binade of [q], and never below
    the step [2 ** -1074] of the subnormal numbers. *)
Definition ulp_exponent (q : Q) : Z := Z.max (binade q - 52) (-1074).

(** The binary64 number nearest to [q], ties to even, for [q] within the
    binary64 range. *)
Definition round64 (q : Q) : Q :=
  match Qnum q with
  | Z0 => 0
  | Zpos _ => round_at (ulp_exponent q) q
  | Zneg _ => - round_at (ulp_exponent (- q)) (- q)
  end%Q.

(** The least magnitude that rounds beyond the largest binary64 number,
    half way between that number and [2 ** 1024]. *)
Definition overflow_threshold : Z := 2 ^ 1024 - 2 ^ 970.

(** [a / b] on Python ints. *)
Definition truediv (a b : Z) : M Q :=
  if b =? 0 then raise ZeroDivisionError
  else if overflow_threshold * Z.abs b <=? Z.abs a then raise OverflowError
  else ret (round64 (inject_Z a / inject_Z b)).

(** [x - y] on Python floats. *)
Definition float_sub (x y : Q) : Q := round64 (x - y).

(** ** The methods of [PomodoroTimer] and the handler that calls them *)

(** [f"{n:02d}"]: decimal, padded with a zero to two characters (the sign
    counts as a character). *)
Definition format_02d (n : Z) : string :=
  let s := NilZero.string_of_int (Z.to_int n) in
  if (String.length s <? 2)%nat then ("0" ++ s)%string else s.

(** [PomodoroTimer.format_duration]:
    [mins, secs = divmod(duration, 60); f"{mins:02d}:{secs:02d}"].
    [update_time] builds its [time_str] with the same two lines. *)
Definition format_duration (duration : Z) : string :=
  let mins := duration / 60 in
  let secs := duration mod 60 in
  (format_02d mins ++ ":" ++ format_02d secs)%string.

(** The break duration that [update_time] and [switch_period] both select:
    [short_break_duration if session_count % 4 != 0 else long_break_duration]. *)
Definition current_break_duration (t : PomodoroTimer) : Z :=
  if negb (session_count t mod 4 =? 0) then short_break_duration t
  else long_break_duration t.

(** [PomodoroTimer.update_time] *)
Definition update_time : M unit :=
  t <- get_self ;;
  let time_str := format_duration (current_time t) in
  time_fraction <-
    (if is_work_period t then
       truediv (work_duration t - current_time t) (work_duration t)
     else
       q <- truediv (current_time t) (current_break_duration t) ;;
       ret (float_sub 1 q)) ;;
  emit (update_signal time_str time_fraction).

(** [PomodoroTimer.reset] *)
Definition reset : M unit :=
  modify_self (fun t => set_current_time (work_duration t) t) ;;
  modify_self (set_session_count 0) ;;
  modify_self (set_is_work_period true) ;;
  update_time.

(** [PomodoroTimer.set_durations] *)
Definition set_durations (work short_break long_break : Z) : M unit :=
  modify_self (set_work_duration work) ;;
  modify_self (set_short_break_duration short_break) ;;
  modify_self (set_long_break_duration long_break) ;;
  reset.

(** The last two lines of [start_timer]:
    [with timer_lock: Thread(target=self.run_timer).start()]. *)
Definition start_thread : M unit := with_timer_lock thread_start.

(** [PomodoroTimer.start_timer] *)
Definition start_timer (g : string) : M unit :=
  modify_self (set_is_running true) ;;
  modify_self (set_goal g) ;;
  t <- get_self ;;
  now <- time_ctime ;;
  modify_self (set_session_history
                 (session_history t ++ [mkSession "Work" now (goal t)])) ;;
  emit (session_change_signal "Work") ;;
  update_time ;;
  start_thread.

(** A call of [self.start_timer] with the positional arguments [args]: the
    method has one required parameter, so any other number of arguments is
    a [TypeError] raised before the body runs. *)
Definition call_start_timer (args : list string) : M unit :=
  match args with
  | [g] => start_timer g
  | _ => raise TypeError
  end.

(** [PomodoroTimer.toggle]; its call is [self.start_timer()]. *)
Definition toggle : M unit :=
  modify_self (fun t => set_is_running (negb (is_running t)) t) ;;
  t <- get_self ;;
  if is_running t then call_start_timer [] else ret tt.

(** [PomodoroTimer.switch_period] *)
Definition switch_period : M unit :=
  modify_self (fun t => set_is_work_period (negb (is_work_period t)) t) ;;
  modify_self (fun t => set_session_count (session_count t + 1) t) ;;
  t <- get_self ;;
  let session_type := (if is_work_period t then "Work" else "Break")%string in
  now <- time_ctime ;;
  modify_self (set_session_history
                 (session_history t ++ [mkSession session_type now (goal t)])) ;;
  t <- get_self ;;
  (if negb (is_work_period t) then
     modify_self (set_current_time (current_break_duration t))
   else
     modify_self (set_current_time (work_duration t))) ;;
  update_time ;;
  t <- get_self ;;
  (if is_running t then thread_start else ret tt) ;;
  emit (session_change_signal session_type) ;;
  t <- get_self ;;
  if is_work_period t then emit reset_goal_signal else ret tt.

(** The condition of the [while] of [run_timer]. *)
Definition loop_guard (t : PomodoroTimer) : bool :=
  (0 <? current_time t) && is_running t.

(** The body of the [while] of [run_timer]: one tick. *)
Definition tick : M unit :=
  time_sleep 1 ;;
  modify_self (fun t => set_current_time (current_time t - 1) t) ;;
  t <- get_self ;;
  (if (current_time t =? 60) && negb (is_work_period t)
   then emit notify_user_signal else ret tt) ;;
  update_time.

(** The [while] of [run_timer], run without interference from the GUI
    thread.  [None] is an exhausted iteration budget. *)
Fixpoint countdown (fuel : nat) (w : World) : option (Outcome unit * World) :=
  if loop_guard (self w) then
    match fuel with
    | O => None
    | S fuel' =>
        match tick w with
        | (Returned _, w') => countdown fuel' w'
        | (Raised e, w') => Some (Raised e, w')
        | (Blocked, w') => Some (Blocked, w')
        end
    end
  else Some (Returned tt, w).

(** What [run_timer] does after its loop. *)
Definition after_countdown : M unit :=
  t <- get_self ;;
  if (current_time t =? 0) && is_running t
  then emit finish_signal ;; switch_period
  else ret tt.

(** What a thread that holds [timer_lock] does in [run_timer]: the loop,
    what follows it, and the lock given back at the end of the [with]. *)
Definition run_timer_body (fuel : nat) (w : World) : option (Outcome unit * World) :=
  match countdown fuel w with
  | None => None
  | Some (Returned _, w') =>
      let (o, w'') := after_countdown w' in Some (o, set_locked false w'')
  | Some (Raised e, w') => Some (Raised e, set_locked false w')
  | Some (Blocked, w') => Some (Blocked, w')
  end.

(** [PomodoroTimer.run_timer], the body of one thread. *)
Definition run_timer (fuel : nat) (w : World) : option (Outcome unit * World) :=
  match acquire w with
  | (Returned _, w1) => run_timer_body fuel w1
  | (Raised e, w1) => Some (Raised e, w1)
  | (Blocked, w1) => Some (Blocked, w1)
  end.

(** [PomodoroTimer.__init__]: the object under construction, then [reset]. *)
Definition init (work short_break long_break now : Z) : Outcome unit * World :=
  reset (mkWorld (mkTimer work short_break long_break false "" [] 0 true 0)
                 [] O now false).

(** [PomodoroApp.toggle_timer], the handler of the start/stop button,
    reduced to its calls into the timer; [goal_entry] is the text of the
    goal field. *)
Definition toggle_timer (goal_entry : string) : M unit :=
  t <- get_self ;;
  if negb (is_running t) then start_timer goal_entry else toggle.

(** ** Threads left to run *)

(** [run_timer] with as many iterations as there are seconds left, which is
    all its loop can use. *)
Definition run_thread (w : World) : option (Outcome unit * World) :=
  run_timer (Z.to_nat (current_time (self w))) w.

(** The world a thread leaves behind; the world itself if the thread did
    not finish. *)
Definition after_thread (w : World) : World :=
  match run_thread w with
  | Some (_, w') => w'
  | None => w
  end.

(** The periods that follow when each thread runs to its end and the next
    one takes over: for each, whether it is a work period and the time it
    starts with.  [None] when a thread raised or did not finish. *)
Fixpoint period_starts (n : nat) (w : World) : option (list (bool * Z)) :=
  match n with
  | O => Some []
  | S n' =>
      match run_thread w with
      | Some (Returned _, w') =>
          match period_starts n' w' with
          | Some l => Some ((is_work_period (self w'), current_time (self w')) :: l)
          | None => None
          end
      | _ => None
      end
  end.

(** ** Sequences of calls *)

(** The calls that reach the object: the four methods the GUI uses, one
    iteration of the loop of a [run_timer] thread, and the period
    transition; and the steps on the lock: a [run_timer] thread takes it, a
    thread gives it back, a [start_timer] that was blocked goes on. *)
Inductive Call : Type :=
| do_reset
| do_set_durations (work short_break long_break : Z)
| do_start_timer (g : string)
| do_toggle
| do_tick
| do_switch_period
| do_acquire
| do_release
| do_start_thread.

Definition perform (c : Call) : M unit :=
  match c with
  | do_reset => reset
  | do_set_durations a b c => set_durations a b c
  | do_start_timer g => start_timer g
  | do_toggle => toggle
  | do_tick => tick
  | do_switch_period => switch_period
  | do_acquire => acquire
  | do_release => release
  | do_start_thread => start_thread
  end.

(** When a call can happen: the GUI passes [set_durations] whole minutes,
    at least one each; the loop body runs only under the loop condition;
    the lock is given back only when it is held.  The other calls are
    possible in every state. *)
Definition enabled (c : Call) (w : World) : Prop :=
  match c with
  | do_set_durations a b c => 0 < a /\ 0 < b /\ 0 < c
  | do_tick => loop_guard (self w) = true
  | do_release => locked w = true
  | _ => True
  end.

(** The world after a sequence of calls, each taken to its end whether it
    returned or raised. *)
Definition run_calls (cs : list Call) (w : World) : World :=
  fold_left (fun w' c => exec (perform c) w') cs w.

(** The states of a timer constructed with positive durations. *)
Inductive reachable : World -> Prop :=
| reachable_init (work short_break long_break now : Z) :
    0 < work -> 0 < short_break -> 0 < long_break ->
    reachable (snd (init work short_break long_break now))
| reachable_call (w : World) (c : Call) :
    reachable w -> enabled c w -> reachable (exec (perform c) w).

(** The goal given to the last [start_timer] of a sequence of calls, [g0]
    when there is none. *)
Fixpoint last_goal (cs : list Call) (g0 : string) : string :=
  match cs with
  | [] => g0
  | do_start_timer g :: cs' => last_goal cs' g
  | _ :: cs' => last_goal cs' g0
  end.

(** ** Specification-side vocabulary *)

(** The duration of the active period: [work_duration] in a work period,
    otherwise the break duration selected for the break. *)
Definition active_duration (t : PomodoroTimer) : Z :=
  if is_work_period t then work_duration t else current_break_duration t.

(** The elapsed fraction that [update_time] computes for the object [t],
    each operation rounded as the interpreter rounds it. *)
Definition elapsed_fraction (t : PomodoroTimer) : Q :=
  if is_work_period t
  then round64 (inject_Z (work_duration t - current_time t)
                / inject_Z (work_duration t))
  else float_sub 1 (round64 (inject_Z (current_time t)
                             / inject_Z (current_break_duration t))).

(** The two ints that [update_time] divides for the object [t]. *)
Definition dividend (t : PomodoroTimer) : Z :=
  if is_work_period t then work_duration t - current_time t else current_time t.

(** Their quotient is within the binary64 range. *)
Definition quotient_fits (t : PomodoroTimer) : Prop :=
  Z.abs (dividend t) < overflow_threshold * Z.abs (active_duration t).

(** The three durations are positive. *)
Definition durations_positive (t : PomodoroTimer) : Prop :=
  0 < work_duration t /\ 0 < short_break_duration t /\ 0 < long_break_duration t.

(** The invariant of the data model on [current_time]. *)
Definition time_in_range (t : PomodoroTimer) : Prop :=
  0 <= current_time t <= active_duration t.

(** The signal a time update sends for the object [t]. *)
Definition time_update (t : PomodoroTimer) : Signal :=
  update_signal (format_duration (current_time t)) (elapsed_fraction t).

(** The world with one more signal in the log. *)
Definition with_signal (s : Signal) (w : World) : World :=
  mkWorld (self w) (emitted w ++ [s]) (started w) (clock w) (locked w).

(** The world with another object in place of [self]. *)
Definition with_self (t : PomodoroTimer) (w : World) : World :=
  mkWorld t (emitted w) (started w) (clock w) (locked w).

(** How many times [notify_user_signal] occurs in a log. *)
Fixpoint notify_count (l : list Signal) : nat :=
  match l with
  | [] => O
  | notify_user_signal :: l' => S (notify_count l')
  | _ :: l' => notify_count l'
  end.

(** The object after [reset]: the three assignments of its body. *)
Definition reset_object (t : PomodoroTimer) : PomodoroTimer :=
  set_is_work_period true (set_session_count 0 (set_current_time (work_duration t) t)).

(** The object after [set_durations]. *)
Definition set_durations_object (a b c : Z) (t : PomodoroTimer) : PomodoroTimer :=
  reset_object
    (set_long_break_duration c (set_short_break_duration b (set_work_duration a t))).

(** The object after [start_timer], whether or not its time update raised. *)
Definition started_object (g : string) (now : Z) (t : PomodoroTimer) : PomodoroTimer :=
  set_session_history (session_history t ++ [mkSession "Work" now g])
    (set_goal g (set_is_running true t)).

(** The object after [switch_period], whether or not its time update
    raised. *)
Definition switched (now : Z) (t : PomodoroTimer) : PomodoroTimer :=
  let t1 := set_session_count (session_count t + 1)
              (set_is_work_period (negb (is_work_period t)) t) in
  let session_type := (if is_work_period t1 then "Work" else "Break")%string in
  let t2 := set_session_history
              (session_history t1 ++ [mkSession session_type now (goal t1)]) t1 in
  set_current_time (active_duration t2) t2.

(** What [switch_period] does after the assignments. *)
Definition announce_period (session_type : string) : M unit :=
  update_time ;;
  t <- get_self ;;
  (if is_running t then thread_start else ret tt) ;;
  emit (session_change_signal session_type) ;;
  t <- get_self ;;
  if is_work_period t then emit reset_goal_signal else ret tt.

(** The name of the period that follows the one [t] is in. *)
Definition next_session_type (t : PomodoroTimer) : string :=
  if negb (is_work_period t) then "Work" else "Break".

(** The object after one tick. *)
Definition ticked (t : PomodoroTimer) : PomodoroTimer :=
  set_current_time (current_time t - 1) t.

(** The signals of one tick that leaves the object as [t]. *)
Definition tick_signals (t : PomodoroTimer) : list Signal :=
  (if (current_time t =? 60) && negb (is_work_period t)
   then [notify_user_signal] else [])
  ++ [time_update t].

(** The notifications still to come in the period [t] is in: one when [t]
    is in a break with more than [60] seconds left, none otherwise. *)
Definition notifications_due (t : PomodoroTimer) : nat :=
  if negb (is_work_period t) && (60 <? current_time t) then 1%nat else 0%nat.

(** The same schedule computed from the period flag and the session count
    alone. *)
Fixpoint schedule (n : nat) (t : PomodoroTimer) : list (bool * Z) :=
  match n with
  | O => []
  | S n' =>
      let t' := switched 0 (set_current_time 0 t) in
      (is_work_period t', current_time t') :: schedule n' t'
  end.

(** Two objects that differ at most in their history and current time. *)
Definition same_period (t1 t2 : PomodoroTimer) : Prop :=
  work_duration t1 = work_duration t2 /\
  short_break_duration t1 = short_break_duration t2 /\
  long_break_duration t1 = long_break_duration t2 /\
  is_work_period t1 = is_work_period t2 /\
  session_count t1 = session_count t2.

(** The object a call leaves behind. *)
Definition performed (c : Call) (now : Z) (t : PomodoroTimer) : PomodoroTimer :=
  match c with
  | do_reset => reset_object t
  | do_set_durations a b c => set_durations_object a b c t
  | do_start_timer g => started_object g now t
  | do_toggle => set_is_running (negb (is_running t)) t
  | do_tick => ticked t
  | do_switch_period => switched now t
  | do_acquire | do_release | do_start_thread => t
  end.

(** ** Worked runs *)

(** A timer with the default durations, constructed at time [0]. *)
Definition fresh_world : World := snd (init 1500 300 900 0).

(** The default timer started with a goal. *)
Definition running_world : World := exec (start_timer "write spec") fresh_world.

(** The running timer paused after its first tick. *)
Definition paused_world : World := exec toggle (exec tick running_world).

(** The running timer with its countdown thread inside the lock, after the
    first tick. *)
Definition counting_world : World := exec tick (exec acquire running_world).

(** A timer with one second of work and one minute of break (the shortest
    break the GUI accepts), at the start of its first break. *)
Definition minute_break_world : World :=
  after_thread (exec (start_timer "write spec") (snd (init 1 60 900 0))).

(** The same with a break of sixty-one seconds. *)
Definition longer_break_world : World :=
  after_thread (exec (start_timer "write spec") (snd (init 1 61 900 0))).

(** ** Two claims as they are stated *)

(** C3, as the claim states it: [start_timer] on a running timer is a no-op
    or is rejected, starts no thread and appends no history entry. *)
Definition start_timer_guarded (g : string) (w : World) : Prop :=
  is_running (self w) = true ->
  (start_timer g w = (Returned tt, w) \/
   exists e : Exception, start_timer g w = (Raised e, w)) /\
  started (exec (start_timer g) w) = started w /\
  session_history (self (exec (start_timer g) w)) = session_history (self w).

(** C5, as the claim states it: a break period that runs to its end
    notifies the user exactly once. *)
Definition notified_once (w : World) : Prop :=
  is_work_period (self w) = false ->
  is_running (self w) = true ->
  current_time (self w) = active_duration (self w) ->
  exists w' : World,
    run_thread w = Some (Returned tt, w') /\
    notify_count (emitted w') = S (notify_count (emitted w)).

(** ** Rounding to binary64 *)

Lemma two_to_pos (e : Z) : (0 < two_to e)%Q.
Proof. apply Qpower_0_lt. reflexivity. Qed.

Lemma two_to_plus (a b : Z) : (two_to (a + b) == two_to a * two_to b)%Q.
Proof. apply Qpower_plus. discriminate. Qed.

Lemma two_to_le (a b : Z) : a <= b -> (two_to a <= two_to b)%Q.
Proof. intros H. apply Qpower_le_compat_l; [exact H | discriminate]. Qed.

Lemma two_to_inject (n : Z) : 0 <= n -> (two_to n == inject_Z (2 ^ n))%Q.
Proof. intros H. symmetry. apply (Zpower_Qpower 2 n H). Qed.

(** Rounding to the nearest integer keeps the order and leaves integers
    alone. *)
Lemma round_half_even_bounds (m : Q) :
  Qfloor m <= round_half_even m <= Qfloor m + 1.
Proof.
  unfold round_half_even.
  destruct (m - inject_Z (Qfloor m) ?= 1 # 2)%Q; [|lia|lia].
  destruct (Z.even (Qfloor m)); lia.
Qed.

Lemma round_half_even_monotone (m1 m2 : Q) :
  (m1 <= m2)%Q -> round_half_even m1 <= round_half_even m2.
Proof.
  intros H.
  pose proof (Qfloor_resp_le m1 m2 H) as Hf.
  pose proof (round_half_even_bounds m1) as B1.
  pose proof (round_half_even_bounds m2) as B2.
  destruct (Z.eq_dec (Qfloor m1) (Qfloor m2)) as [E|E]; [|lia].
  unfold round_half_even in *. rewrite <- E in *.
  destruct (Qcompare_spec (m1 - inject_Z (Qfloor m1)) (1 # 2)) as [C1|C1|C1];
    destruct (Qcompare_spec (m2 - inject_Z (Qfloor m1)) (1 # 2)) as [C2|C2|C2];
    try lia; try (exfalso; lra);
    destruct (Z.even (Qfloor m1)); lia.
Qed.

Lemma round_half_even_integer (k : Z) : round_half_even (inject_Z k) = k.
Proof.
  unfold round_half_even. rewrite Qfloor_Z.
  destruct (Qcompare_spec (inject_Z k - inject_Z k) (1 # 2)) as [C|C|C];
    try reflexivity; exfalso; lra.
Qed.

Lemma round_half_even_le_integer (m : Q) (k : Z) :
  (m <= inject_Z k)%Q -> round_half_even m <= k.
Proof.
  intros H. rewrite <- (round_half_even_integer k).
  apply round_half_even_monotone, H.
Qed.

Lemma integer_le_round_half_even (m : Q) (k : Z) :
  (inject_Z k <= m)%Q -> k <= round_half_even m.
Proof.
  intros H. rewrite <- (round_half_even_integer k).
  apply round_half_even_monotone, H.
Qed.

(** So does rounding to a multiple of a power of two. *)
Lemma round_at_monotone (u : Z) (x y : Q) :
  (x <= y)%Q -> (round_at u x <= round_at u y)%Q.
Proof.
  intros H. unfold round_at. rewrite !Qred_correct.
  pose proof (two_to_pos u) as Hu.
  apply Qmult_le_compat_r; [|lra].
  rewrite <- Zle_Qle. apply round_half_even_monotone.
  unfold Qdiv. apply Qmult_le_compat_r; [exact H|].
  apply Qinv_le_0_compat. lra.
Qed.

Lemma round_at_grid (u k : Z) :
  (round_at u (inject_Z k * two_to u) == inject_Z k * two_to u)%Q.
Proof.
  unfold round_at. rewrite Qred_correct.
  pose proof (two_to_pos u) as Hu.
  assert (E : (inject_Z k * two_to u / two_to u == inject_Z k)%Q).
  { field. lra. }
  assert (R : round_half_even (inject_Z k * two_to u / two_to u) = k).
  { apply Z.le_antisymm.
    - apply round_half_even_le_integer. rewrite E. lra.
    - apply integer_le_round_half_even. rewrite E. lra. }
  rewrite R. reflexivity.
Qed.

Lemma Qnum_positive (q : Q) : (0 < q)%Q <-> 0 < Qnum q.
Proof. unfold Qlt. simpl. lia. Qed.

(** The binade of a positive number. *)
Lemma binade_spec (q : Q) :
  (0 < q)%Q -> (two_to (binade q) <= q < two_to (binade q + 1))%Q.
Proof.
  intros Hq. destruct q as [n d]. apply Qnum_positive in Hq as Hn. simpl in Hn.
  unfold binade. simpl Qnum. simpl Qden.
  set (a := Z.log2 n). set (b := Z.log2 (Z.pos d)).
  pose proof (Z.log2_spec n Hn) as [La Ua]. fold a in La, Ua.
  pose proof (Z.log2_spec (Z.pos d) (Pos2Z.is_pos d)) as [Lb Ub].
  fold b in Lb, Ub.
  assert (Ha0 : 0 <= a) by apply Z.log2_nonneg.
  assert (Hb0 : 0 <= b) by apply Z.log2_nonneg.
  rewrite Zle_Qle, <- two_to_inject in La by exact Ha0.
  rewrite Zlt_Qlt, <- two_to_inject in Ua by lia.
  rewrite Zle_Qle, <- two_to_inject in Lb by exact Hb0.
  rewrite Zlt_Qlt, <- two_to_inject in Ub by lia.
  pose proof (Qmake_Qdiv n d) as Eq.
  set (N := inject_Z n) in *. set (D := inject_Z (Z.pos d)) in *.
  assert (HD : (0 < D)%Q) by (pose proof (two_to_pos b); lra).
  destruct (Qle_bool (two_to (a - b)) (n # d)) eqn:T.
  - apply Qle_bool_iff in T. split; [exact T|].
    rewrite Eq. apply Qlt_shift_div_r; [exact HD|].
    replace (a - b + 1) with ((a + 1) + - b) by lia.
    rewrite two_to_plus.
    pose proof (two_to_plus b (- b)) as Hinv.
    replace (b + - b) with 0 in Hinv by lia.
    change (two_to 0) with 1%Q in Hinv.
    pose proof (two_to_pos (- b)) as Hnb.
    pose proof (two_to_pos (Z.succ a)) as Hsa.
    replace (a + 1) with (Z.succ a) by lia.
    assert (H1 : (1 <= two_to (- b) * D)%Q) by nra.
    set (S := two_to (Z.succ a)) in *. set (I := two_to (- b)) in *.
    assert (H2 : (S * 1 <= S * (I * D))%Q).
    { apply Qmult_le_l; [exact Hsa | exact H1]. }
    lra.
  - assert (T' : ~ (two_to (a - b) <= n # d)%Q).
    { intros H. apply Qle_bool_iff in H. congruence. }
    apply Qnot_le_lt in T'.
    replace (a - b - 1 + 1) with (a - b) by lia.
    split; [|exact T'].
    rewrite Eq. apply Qle_shift_div_l; [exact HD|].
    replace a with ((a - b - 1) + Z.succ b) in La by lia.
    rewrite two_to_plus in La.
    pose proof (two_to_pos (a - b - 1)) as Hx.
    set (X := two_to (a - b - 1)) in *. set (B := two_to (Z.succ b)) in *.
    assert (H2 : (X * D <= X * B)%Q).
    { apply Qmult_le_l; [exact Hx | lra]. }
    lra.
Qed.

Lemma binade_monotone (x y : Q) :
  (0 < x)%Q -> (x <= y)%Q -> binade x <= binade y.
Proof.
  intros Hx Hxy.
  destruct (Z.le_gt_cases (binade x) (binade y)) as [H|H]; [exact H|].
  exfalso.
  pose proof (binade_spec x Hx) as [Lx _].
  assert (Hy : (0 < y)%Q) by lra.
  pose proof (binade_spec y Hy) as [_ Uy].
  pose proof (two_to_le (binade y + 1) (binade x)) as Hle.
  assert (H' : binade y + 1 <= binade x) by lia.
  specialize (Hle H'). lra.
Qed.

Lemma round_at_compat (u : Z) (x y : Q) :
  (x == y)%Q -> (round_at u x == round_at u y)%Q.
Proof.
  intros H. apply Qle_antisym; apply round_at_monotone; rewrite H; apply Qle_refl.
Qed.

Lemma two_to_grid (u e : Z) :
  u <= e -> (two_to e == inject_Z (2 ^ (e - u)) * two_to u)%Q.
Proof.
  intros H. rewrite <- two_to_inject by lia.
  rewrite <- two_to_plus. replace (e - u + u) with e by lia. reflexivity.
Qed.

Lemma round_positive_monotone (x y : Q) :
  (0 < x)%Q -> (x <= y)%Q ->
  (round_at (ulp_exponent x) x <= round_at (ulp_exponent y) y)%Q.
Proof.
  intros Hx Hxy.
  assert (Hy : (0 < y)%Q) by lra.
  pose proof (binade_monotone x y Hx Hxy) as Hb.
  pose proof (binade_spec x Hx) as [Lx Ux].
  pose proof (binade_spec y Hy) as [Ly Uy].
  unfold ulp_exponent.
  set (ux := Z.max (binade x - 52) (-1074)).
  set (uy := Z.max (binade y - 52) (-1074)).
  destruct (Z.eq_dec ux uy) as [E|E].
  - rewrite E. apply round_at_monotone, Hxy.
  - assert (Hlt : ux < uy) by (unfold ux, uy in *; lia).
    assert (Huy : uy = binade y - 52) by (unfold ux, uy in *; lia).
    set (e := Z.max (binade x + 1) ux).
    assert (He1 : ux <= e) by (unfold e; lia).
    assert (He2 : e <= binade y) by (unfold e, ux, uy in *; lia).
    apply Qle_trans with (two_to e).
    + rewrite (two_to_grid ux e He1).
      rewrite <- (round_at_grid ux (2 ^ (e - ux))).
      apply round_at_monotone.
      rewrite <- (two_to_grid ux e He1).
      pose proof (two_to_le (binade x + 1) e) as H1.
      assert (H2 : binade x + 1 <= e) by (unfold e; lia).
      specialize (H1 H2). lra.
    + apply Qle_trans with (two_to (binade y)); [apply two_to_le, He2|].
      assert (Hg : uy <= binade y) by lia.
      rewrite (two_to_grid uy (binade y) Hg).
      rewrite <- (round_at_grid uy (2 ^ (binade y - uy))).
      apply round_at_monotone.
      rewrite <- (two_to_grid uy (binade y) Hg). exact Ly.
Qed.

Lemma round_at_nonneg (u : Z) (x : Q) : (0 <= x)%Q -> (0 <= round_at u x)%Q.
Proof.
  intros H.
  assert (E : (round_at u (inject_Z 0 * two_to u) == 0)%Q).
  { rewrite round_at_grid. ring. }
  rewrite <- E. apply round_at_monotone. ring_simplify. exact H.
Qed.

Lemma round64_unfold (q : Q) :
  round64 q
  = match Qnum q with
    | 0 => 0%Q
    | Z.pos _ => round_at (ulp_exponent q) q
    | Z.neg _ => (- round_at (ulp_exponent (- q)) (- q))%Q
    end.
Proof. reflexivity. Qed.

(** Rounding to binary64 keeps the order. *)
Lemma round64_monotone (x y : Q) :
  (x <= y)%Q -> (round64 x <= round64 y)%Q.
Proof.
  intros H. rewrite !round64_unfold.
  destruct (Qnum x) as [|px|px] eqn:Ex; destruct (Qnum y) as [|py|py] eqn:Ey.
  - apply Qle_refl.
  - apply round_at_nonneg. unfold Qle. simpl. rewrite Ey. lia.
  - exfalso. unfold Qle in H. rewrite Ex, Ey in H. simpl in H. lia.
  - exfalso. unfold Qle in H. rewrite Ex, Ey in H. simpl in H. lia.
  - apply round_positive_monotone; [|exact H].
    apply Qnum_positive. rewrite Ex. lia.
  - exfalso. unfold Qle in H. rewrite Ex, Ey in H. simpl in H. lia.
  - assert (N : (0 <= round_at (ulp_exponent (- x)) (- x))%Q).
    { apply round_at_nonneg. unfold Qle. simpl. rewrite Ex. lia. }
    lra.
  - assert (N : (0 <= round_at (ulp_exponent (- x)) (- x))%Q).
    { apply round_at_nonneg. unfold Qle. simpl. rewrite Ex. lia. }
    assert (P : (0 <= round_at (ulp_exponent y) y)%Q).
    { apply round_at_nonneg. unfold Qle. simpl. rewrite Ey. lia. }
    lra.
  - assert (M : (round_at (ulp_exponent (- y)) (- y)
                 <= round_at (ulp_exponent (- x)) (- x))%Q).
    { apply round_positive_monotone; [|lra].
      apply Qnum_positive. simpl. rewrite Ey. lia. }
    lra.
Qed.

Lemma round64_compat (x y : Q) : (x == y)%Q -> (round64 x == round64 y)%Q.
Proof.
  intros H. apply Qle_antisym; apply round64_monotone; rewrite H; apply Qle_refl.
Qed.

Lemma round64_zero (x : Q) : (x == 0)%Q -> (round64 x == 0)%Q.
Proof. intros H. rewrite (round64_compat x 0 H). reflexivity. Qed.

Lemma round64_one (x : Q) : (x == 1)%Q -> (round64 x == 1)%Q.
Proof. intros H. rewrite (round64_compat x 1 H). reflexivity. Qed.

(** Magnitudes that fit: a dividend no larger than twice the divisor. *)
Lemma overflow_threshold_large : 2 < overflow_threshold.
Proof. reflexivity. Qed.

(** ** Basic facts about the methods *)

Lemma active_duration_positive (t : PomodoroTimer) :
  durations_positive t -> 0 < active_duration t.
Proof.
  unfold durations_positive, active_duration, current_break_duration.
  intros (Hw & Hs & Hl).
  destruct (is_work_period t); [assumption|].
  destruct (session_count t mod 4 =? 0); simpl; assumption.
Qed.

(** While the time left is in range, and one tick below, the quotient of
    [update_time] fits. *)
Lemma quotient_fits_in_range (t : PomodoroTimer) :
  durations_positive t ->
  -1 <= current_time t <= active_duration t ->
  quotient_fits t.
Proof.
  intros Hd Hc. pose proof (active_duration_positive t Hd) as Ha.
  pose proof overflow_threshold_large as HT.
  unfold quotient_fits, dividend.
  set (T := overflow_threshold) in *. clearbody T.
  unfold active_duration in *.
  destruct (is_work_period t); nia.
Qed.

(** So it does at the start of a period whose duration is not zero. *)
Lemma quotient_fits_at_start (t : PomodoroTimer) :
  active_duration t <> 0 ->
  current_time t = active_duration t ->
  quotient_fits t.
Proof.
  intros Ha Hc.
  pose proof overflow_threshold_large as HT.
  unfold quotient_fits, dividend.
  set (T := overflow_threshold) in *. clearbody T.
  unfold active_duration in *.
  destruct (is_work_period t); rewrite Hc; nia.
Qed.

(** [update_time] returns, having sent one time update and changed nothing
    else, whenever the active duration is not zero and the quotient fits. *)
Lemma update_time_returns (w : World) :
  active_duration (self w) <> 0 ->
  quotient_fits (self w) ->
  update_time w = (Returned tt, with_signal (time_update (self w)) w).
Proof.
  unfold quotient_fits, dividend, active_duration, update_time, time_update,
    elapsed_fraction, with_signal, bind, get_self, truediv, emit, ret, raise.
  intros Hd Hf. destruct (is_work_period (self w)).
  - rewrite (proj2 (Z.eqb_neq _ _) Hd), (proj2 (Z.leb_gt _ _) Hf). reflexivity.
  - rewrite (proj2 (Z.eqb_neq _ _) Hd), (proj2 (Z.leb_gt _ _) Hf). reflexivity.
Qed.

(** With a zero active duration [update_time] raises and changes nothing. *)
Lemma update_time_raises (w : World) :
  active_duration (self w) = 0 ->
  update_time w = (Raised ZeroDivisionError, w).
Proof.
  unfold active_duration, update_time, bind, get_self, truediv, emit, ret, raise.
  intros Hd. destruct (is_work_period (self w)); rewrite Hd; reflexivity.
Qed.

(** [update_time] either sends its signal or raises, and changes nothing
    else. *)
Lemma update_time_cases (w : World) :
  update_time w = (Returned tt, with_signal (time_update (self w)) w) \/
  exists e : Exception, update_time w = (Raised e, w).
Proof.
  unfold update_time, time_update, elapsed_fraction, with_signal, bind,
    get_self, truediv, emit, ret, raise.
  destruct (is_work_period (self w)).
  - destruct (work_duration (self w) =? 0); [right; eexists; reflexivity|].
    destruct (_ <=? _); [right; eexists; reflexivity|].
    left. reflexivity.
  - destruct (current_break_duration (self w) =? 0);
      [right; eexists; reflexivity|].
    destruct (_ <=? _); [right; eexists; reflexivity|].
    left. reflexivity.
Qed.

(** In either case the object is left as it was. *)
Lemma update_time_self (w : World) : self (exec update_time w) = self w.
Proof.
  unfold exec.
  destruct (update_time_cases w) as [E|[e E]]; rewrite E; reflexivity.
Qed.

Lemma update_time_started (w : World) : started (exec update_time w) = started w.
Proof.
  unfold exec.
  destruct (update_time_cases w) as [E|[e E]]; rewrite E; reflexivity.
Qed.

Lemma reset_unfold (w : World) :
  reset w = update_time (with_self (reset_object (self w)) w).
Proof. reflexivity. Qed.

Lemma reset_self (w : World) : self (exec reset w) = reset_object (self w).
Proof.
  unfold exec. rewrite reset_unfold.
  apply (update_time_self (with_self (reset_object (self w)) w)).
Qed.

Lemma reset_returns (w : World) :
  work_duration (self w) <> 0 ->
  reset w = (Returned tt,
             with_signal (time_update (reset_object (self w)))
                         (with_self (reset_object (self w)) w)).
Proof.
  intros Hw. rewrite reset_unfold.
  apply update_time_returns; [exact Hw|].
  apply quotient_fits_at_start; [exact Hw | reflexivity].
Qed.

(** With a zero work duration [reset] still assigns the three attributes,
    then raises before any signal is sent. *)
Lemma reset_zero_work_duration (w : World) :
  work_duration (self w) = 0 ->
  reset w = (Raised ZeroDivisionError, with_self (reset_object (self w)) w).
Proof.
  intros Hw. rewrite reset_unfold.
  apply update_time_raises. exact Hw.
Qed.

Lemma set_durations_self (a b c : Z) (w : World) :
  self (exec (set_durations a b c) w) = set_durations_object a b c (self w).
Proof.
  change (set_durations a b c w)
    with (reset (with_self (set_long_break_duration c
                   (set_short_break_duration b (set_work_duration a (self w)))) w)).
  apply reset_self.
Qed.

Lemma start_timer_unfold (g : string) (w : World) :
  start_timer g w =
  (update_time ;; start_thread)
    (with_signal (session_change_signal "Work")
       (with_self (started_object g (clock w) (self w)) w)).
Proof. reflexivity. Qed.

(** [start_thread] starts a thread when the lock is free and is blocked
    when it is not; it leaves the object alone. *)
Lemma start_thread_free (w : World) :
  locked w = false ->
  start_thread w
  = (Returned tt,
     mkWorld (self w) (emitted w) (S (started w)) (clock w) false).
Proof.
  intros Hl. unfold start_thread, with_timer_lock, acquire. rewrite Hl.
  reflexivity.
Qed.

Lemma start_thread_blocked (w : World) :
  locked w = true -> start_thread w = (Blocked, w).
Proof.
  intros Hl. unfold start_thread, with_timer_lock, acquire. rewrite Hl.
  reflexivity.
Qed.

Lemma start_thread_self (w : World) : self (exec start_thread w) = self w.
Proof.
  unfold exec. destruct (locked w) eqn:Hl.
  - rewrite start_thread_blocked by exact Hl. reflexivity.
  - rewrite start_thread_free by exact Hl. reflexivity.
Qed.

Lemma start_timer_self (g : string) (w : World) :
  self (exec (start_timer g) w) = started_object g (clock w) (self w).
Proof.
  unfold exec. rewrite start_timer_unfold.
  set (w1 := with_signal _ _).
  unfold bind.
  destruct (update_time_cases w1) as [E|[e E]]; rewrite E; [|reflexivity].
  apply (start_thread_self (with_signal (time_update (self w1)) w1)).
Qed.

(** [start_timer] looks at no flag of the object: when its time update
    returns and the lock is free, it returns, having started one more
    thread. *)
Lemma start_timer_returns (g : string) (w : World) :
  active_duration (self w) <> 0 ->
  quotient_fits (self w) ->
  locked w = false ->
  start_timer g w =
  (Returned tt,
   mkWorld (started_object g (clock w) (self w))
           (emitted w ++ [session_change_signal "Work"]
                      ++ [time_update (started_object g (clock w) (self w))])
           (S (started w)) (clock w) false).
Proof.
  intros Hd Hf Hl. rewrite start_timer_unfold.
  set (w1 := with_signal _ _).
  unfold bind. rewrite update_time_returns by assumption.
  rewrite start_thread_free by exact Hl.
  unfold w1, with_signal, with_self. simpl.
  rewrite <- app_assoc. reflexivity.
Qed.

(** When the lock is taken it has done all that and is then blocked, no
    thread started. *)
Lemma start_timer_blocked (g : string) (w : World) :
  active_duration (self w) <> 0 ->
  quotient_fits (self w) ->
  locked w = true ->
  start_timer g w =
  (Blocked,
   mkWorld (started_object g (clock w) (self w))
           (emitted w ++ [session_change_signal "Work"]
                      ++ [time_update (started_object g (clock w) (self w))])
           (started w) (clock w) true).
Proof.
  intros Hd Hf Hl. rewrite start_timer_unfold.
  set (w1 := with_signal _ _).
  unfold bind. rewrite update_time_returns by assumption.
  rewrite start_thread_blocked by exact Hl.
  unfold w1, with_signal, with_self. simpl.
  rewrite <- app_assoc, Hl. reflexivity.
Qed.

(** [toggle] on a running timer only clears the flag. *)
Lemma toggle_when_running (w : World) :
  is_running (self w) = true ->
  toggle w = (Returned tt, with_self (set_is_running false (self w)) w).
Proof.
  intros Hr. unfold toggle, bind, modify_self, get_self. simpl.
  rewrite Hr. reflexivity.
Qed.

(** [toggle] on a stopped timer sets the flag, then fails on the call. *)
Lemma toggle_when_stopped (w : World) :
  is_running (self w) = false ->
  toggle w = (Raised TypeError, with_self (set_is_running true (self w)) w).
Proof.
  intros Hr. unfold toggle, bind, modify_self, get_self. simpl.
  rewrite Hr. reflexivity.
Qed.

Lemma toggle_self (w : World) :
  self (exec toggle w) = set_is_running (negb (is_running (self w))) (self w).
Proof.
  unfold exec. destruct (is_running (self w)) eqn:Hr.
  - rewrite toggle_when_running by assumption. reflexivity.
  - rewrite toggle_when_stopped by assumption. reflexivity.
Qed.

Lemma switch_period_unfold (w : World) :
  switch_period w =
  announce_period (next_session_type (self w))
                  (with_self (switched (clock w) (self w)) w).
Proof.
  unfold switch_period, announce_period, next_session_type, switched,
    active_duration, bind, modify_self, get_self, time_ctime, with_self. simpl.
  destruct (is_work_period (self w)); reflexivity.
Qed.

Lemma announce_period_self (ty : string) (w : World) :
  self (exec (announce_period ty) w) = self w.
Proof.
  unfold exec, announce_period, bind.
  destruct (update_time_cases w) as [E|[e E]]; rewrite E; [|reflexivity].
  unfold get_self, thread_start, ret, emit, with_signal. simpl.
  destruct (is_running (self w)); simpl;
    destruct (is_work_period (self w)); reflexivity.
Qed.

Lemma switch_period_self (w : World) :
  self (exec switch_period w) = switched (clock w) (self w).
Proof.
  unfold exec. rewrite switch_period_unfold.
  apply (announce_period_self _ (with_self (switched (clock w) (self w)) w)).
Qed.

Lemma switched_durations (now : Z) (t : PomodoroTimer) :
  durations_positive t -> durations_positive (switched now t).
Proof. intros H. exact H. Qed.

(** A period starts with its whole duration left. *)
Lemma switched_current_time (now : Z) (t : PomodoroTimer) :
  current_time (switched now t) = active_duration (switched now t).
Proof. reflexivity. Qed.

Lemma switched_current_time_positive (now : Z) (t : PomodoroTimer) :
  durations_positive t -> 0 < current_time (switched now t).
Proof.
  intros Hd. rewrite switched_current_time.
  apply active_duration_positive, switched_durations, Hd.
Qed.

(** With positive durations [switch_period] returns; it starts the thread
    of the next period exactly when the timer is running. *)
Lemma switch_period_returns (w : World) :
  durations_positive (self w) ->
  switch_period w =
  (Returned tt,
   mkWorld (switched (clock w) (self w))
           (emitted w
              ++ [time_update (switched (clock w) (self w));
                  session_change_signal (next_session_type (self w))]
              ++ (if negb (is_work_period (self w))
                  then [reset_goal_signal] else []))
           (if is_running (self w) then S (started w) else started w)
           (clock w) (locked w)).
Proof.
  intros Hd. rewrite switch_period_unfold.
  unfold announce_period, bind.
  assert (Ha : active_duration (switched (clock w) (self w)) <> 0).
  { apply Z.neq_sym, Z.lt_neq, active_duration_positive.
    apply switched_durations, Hd. }
  rewrite update_time_returns;
    [| exact Ha | apply quotient_fits_at_start; [exact Ha | reflexivity]].
  unfold get_self, thread_start, ret, emit, with_signal, with_self. simpl.
  destruct (is_running (self w)); simpl;
    destruct (is_work_period (self w)); simpl;
    repeat rewrite <- app_assoc; reflexivity.
Qed.

Lemma tick_unfold (w : World) :
  tick w =
  update_time
    (mkWorld (ticked (self w))
             (emitted w ++ (if (current_time (ticked (self w)) =? 60)
                               && negb (is_work_period (ticked (self w)))
                            then [notify_user_signal] else []))
             (started w) (clock w + 1) (locked w)).
Proof.
  unfold tick, bind, time_sleep, modify_self, get_self, emit, ret, ticked.
  simpl.
  destruct ((current_time (self w) - 1 =? 60) && negb (is_work_period (self w)));
    simpl; [reflexivity|].
  rewrite app_nil_r. reflexivity.
Qed.

Lemma tick_self (w : World) : self (exec tick w) = ticked (self w).
Proof.
  unfold exec. rewrite tick_unfold.
  match goal with |- self (snd (update_time ?x)) = _ =>
    apply (update_time_self x) end.
Qed.

(** A tick never blocks. *)
Lemma tick_not_blocked (w : World) (w' : World) : tick w <> (Blocked, w').
Proof.
  rewrite tick_unfold.
  match goal with |- update_time ?x <> _ =>
    destruct (update_time_cases x) as [E|[e E]]; rewrite E; discriminate
  end.
Qed.

Lemma tick_returns (w : World) :
  active_duration (self w) <> 0 ->
  quotient_fits (ticked (self w)) ->
  tick w =
  (Returned tt,
   mkWorld (ticked (self w)) (emitted w ++ tick_signals (ticked (self w)))
           (started w) (clock w + 1) (locked w)).
Proof.
  intros Hd Hf. rewrite tick_unfold.
  rewrite update_time_returns by assumption.
  unfold with_signal, tick_signals. simpl.
  rewrite <- app_assoc. reflexivity.
Qed.

Lemma notify_count_app (l1 l2 : list Signal) :
  notify_count (l1 ++ l2) = (notify_count l1 + notify_count l2)%nat.
Proof.
  induction l1 as [|s l1 IH]; simpl; [reflexivity|].
  destruct s; simpl; rewrite IH; reflexivity.
Qed.

Lemma notify_count_tick_signals (t : PomodoroTimer) :
  notify_count (tick_signals t) =
  if (current_time t =? 60) && negb (is_work_period t) then 1%nat else 0%nat.
Proof.
  unfold tick_signals, time_update.
  destruct ((current_time t =? 60) && negb (is_work_period t)); reflexivity.
Qed.

(** ** The countdown loop and the threads *)

(** The loop always comes to an end within [current_time] iterations. *)
Lemma countdown_total (fuel : nat) :
  forall w : World,
    (Z.to_nat (current_time (self w)) <= fuel)%nat ->
    countdown fuel w <> None.
Proof.
  induction fuel as [|fuel IH]; intros w Hf; simpl;
    destruct (loop_guard (self w)) eqn:Hg; try discriminate.
  - unfold loop_guard in Hg. apply andb_prop in Hg. destruct Hg as [Hc _].
    apply Z.ltb_lt in Hc. lia.
  - unfold loop_guard in Hg. apply andb_prop in Hg. destruct Hg as [Hc _].
    apply Z.ltb_lt in Hc.
    pose proof (tick_self w) as Hs. unfold exec in Hs.
    destruct (tick w) as [[u|e|] w']; [|discriminate|discriminate].
    apply IH. simpl in Hs. rewrite Hs. unfold ticked. simpl. lia.
Qed.

(** More iterations than needed change nothing. *)
Lemma countdown_more_fuel (fuel : nat) :
  forall (w : World) (r : Outcome unit * World),
    countdown fuel w = Some r ->
    forall fuel' : nat, (fuel <= fuel')%nat -> countdown fuel' w = Some r.
Proof.
  induction fuel as [|fuel IH]; intros w r Hr fuel' Hle.
  - simpl in Hr. destruct fuel'; simpl;
      destruct (loop_guard (self w)); congruence.
  - destruct fuel' as [|fuel']; [lia|].
    simpl in *. destruct (loop_guard (self w)); [|exact Hr].
    destruct (tick w) as [[u|e|] w']; [|exact Hr|exact Hr].
    apply (IH _ _ Hr). lia.
Qed.

(** A running countdown with positive durations and its time in range
    reaches zero: the object is otherwise untouched, no thread is started,
    the lock is as it was, the clock has advanced by the seconds counted,
    and the user was notified exactly when a break passed through [60]. *)
Lemma countdown_runs (fuel : nat) :
  forall w : World,
    is_running (self w) = true ->
    durations_positive (self w) ->
    time_in_range (self w) ->
    (Z.to_nat (current_time (self w)) <= fuel)%nat ->
    exists w' : World,
      countdown fuel w = Some (Returned tt, w') /\
      self w' = set_current_time 0 (self w) /\
      started w' = started w /\
      locked w' = locked w /\
      clock w' = clock w + current_time (self w) /\
      notify_count (emitted w') =
      (notify_count (emitted w) + notifications_due (self w))%nat.
Proof.
  unfold notifications_due, time_in_range.
  induction fuel as [|fuel IH]; intros w Hr Hd Hc Hf.
  - assert (E : current_time (self w) = 0) by lia.
    exists w. simpl. unfold loop_guard. rewrite E. simpl.
    repeat split.
    + destruct w as [t e n c l]; destruct t; simpl in *. subst. reflexivity.
    + lia.
    + rewrite andb_false_r. lia.
  - simpl. unfold loop_guard. rewrite Hr, andb_true_r.
    destruct (Z.ltb_spec 0 (current_time (self w))) as [Hpos|Hz].
    + assert (Ha : active_duration (self w) <> 0)
        by (apply Z.neq_sym, Z.lt_neq, active_duration_positive, Hd).
      assert (Hq : quotient_fits (ticked (self w))).
      { apply quotient_fits_in_range; [exact Hd|].
        change (active_duration (ticked (self w))) with (active_duration (self w)).
        unfold ticked. simpl. lia. }
      rewrite tick_returns by assumption.
      set (w1 := mkWorld (ticked (self w)) _ _ _ _).
      destruct (IH w1) as (w' & Hrun & Hs & Hst & Hlk & Hcl & Hn).
      * exact Hr.
      * exact Hd.
      * change (active_duration (self w1)) with (active_duration (self w)).
        simpl. lia.
      * simpl. lia.
      * exists w'. split; [exact Hrun|].
        split; [rewrite Hs; reflexivity|].
        split; [rewrite Hst; reflexivity|].
        split; [rewrite Hlk; reflexivity|].
        split; [rewrite Hcl; simpl; lia|].
        rewrite Hn. unfold w1. simpl emitted. simpl self.
        rewrite notify_count_app, notify_count_tick_signals.
        unfold ticked. simpl.
        destruct (is_work_period (self w)); simpl.
        { rewrite andb_false_r. lia. }
        rewrite andb_true_r.
        destruct (Z.eqb_spec (current_time (self w) - 1) 60);
          destruct (Z.ltb_spec 60 (current_time (self w) - 1));
          destruct (Z.ltb_spec 60 (current_time (self w))); lia.
    + assert (E : current_time (self w) = 0) by lia.
      exists w. rewrite E.
      repeat split.
      * destruct w as [t e n c l]; destruct t; simpl in *. subst. reflexivity.
      * lia.
      * simpl. rewrite andb_false_r. lia.
Qed.

(** A thread always comes to an end, if only by being blocked. *)
Lemma run_thread_total (w : World) : run_thread w <> None.
Proof.
  unfold run_thread, run_timer, acquire.
  destruct (locked w); [discriminate|].
  unfold run_timer_body.
  pose proof (countdown_total (Z.to_nat (current_time (self w)))
                (set_locked true w) (le_n _)) as H.
  destruct (countdown _ (set_locked true w)) as [[[u|e|] w']|];
    try congruence; try discriminate.
  destruct (after_countdown w'). discriminate.
Qed.

(** A thread that holds the lock, on a running timer with positive
    durations and its time in range, counts down to zero, sends
    [finish_signal], switches the period, starts the thread of the next
    period and gives the lock back. *)
Lemma run_timer_body_returns (w : World) :
  is_running (self w) = true ->
  durations_positive (self w) ->
  time_in_range (self w) ->
  exists w' : World,
    run_timer_body (Z.to_nat (current_time (self w))) w
    = Some (Returned tt, w') /\
    self w' = switched (clock w + current_time (self w))
                       (set_current_time 0 (self w)) /\
    started w' = S (started w) /\
    locked w' = false /\
    clock w' = clock w + current_time (self w) /\
    notify_count (emitted w') =
    (notify_count (emitted w) + notifications_due (self w))%nat.
Proof.
  intros Hr Hd Hc. unfold run_timer_body.
  destruct (countdown_runs (Z.to_nat (current_time (self w))) w)
    as (w1 & Hrun & Hs & Hst & Hlk & Hcl & Hn); try assumption.
  - apply le_n.
  - rewrite Hrun. unfold after_countdown, bind, get_self.
    rewrite Hs. simpl. rewrite Hr. simpl.
    rewrite switch_period_returns by (simpl; rewrite Hs; exact Hd).
    eexists. split; [reflexivity|]. simpl. rewrite Hs, Hcl, Hst. simpl.
    rewrite Hr.
    split; [reflexivity|]. split; [reflexivity|]. split; [reflexivity|].
    split; [reflexivity|].
    rewrite !notify_count_app, Hn. simpl.
    destruct (is_work_period (self w)); simpl; lia.
Qed.

(** The same for a thread that finds the lock free. *)
Lemma run_thread_returns (w : World) :
  is_running (self w) = true ->
  durations_positive (self w) ->
  time_in_range (self w) ->
  locked w = false ->
  exists w' : World,
    run_thread w = Some (Returned tt, w') /\
    self w' = switched (clock w + current_time (self w))
                       (set_current_time 0 (self w)) /\
    started w' = S (started w) /\
    locked w' = false /\
    clock w' = clock w + current_time (self w) /\
    notify_count (emitted w') =
    (notify_count (emitted w) + notifications_due (self w))%nat.
Proof.
  intros Hr Hd Hc Hl. unfold run_thread, run_timer, acquire. rewrite Hl.
  exact (run_timer_body_returns (set_locked true w) Hr Hd Hc).
Qed.

Lemma schedule_same_period (n : nat) :
  forall t1 t2 : PomodoroTimer,
    same_period t1 t2 -> schedule n t1 = schedule n t2.
Proof.
  induction n as [|n IH]; intros t1 t2 H; [reflexivity|].
  destruct H as (Hw & Hs & Hl & Hp & Hc).
  simpl. f_equal.
  - unfold switched, active_duration, current_break_duration. simpl.
    rewrite Hw, Hs, Hl, Hp, Hc. reflexivity.
  - apply IH. unfold same_period, switched. simpl.
    rewrite Hw, Hs, Hl, Hp, Hc. repeat split; reflexivity.
Qed.

Lemma switched_in_range (now : Z) (t : PomodoroTimer) :
  durations_positive t -> time_in_range (switched now t).
Proof.
  intros Hd. unfold time_in_range. rewrite switched_current_time.
  pose proof (active_duration_positive (switched now t) Hd). lia.
Qed.

(** Running the threads one after the other produces the schedule. *)
Lemma period_starts_schedule (n : nat) :
  forall w : World,
    is_running (self w) = true ->
    durations_positive (self w) ->
    time_in_range (self w) ->
    locked w = false ->
    period_starts n w = Some (schedule n (self w)).
Proof.
  induction n as [|n IH]; intros w Hr Hd Hc Hl; [reflexivity|].
  simpl period_starts.
  destruct (run_thread_returns w Hr Hd Hc Hl) as (w' & Hrun & Hs & _ & Hl' & _).
  rewrite Hrun.
  assert (Hsame : same_period
                    (switched (clock w + current_time (self w))
                              (set_current_time 0 (self w)))
                    (switched 0 (set_current_time 0 (self w)))).
  { unfold same_period, switched. simpl. repeat split; reflexivity. }
  rewrite IH.
  - rewrite Hs. simpl schedule.
    rewrite (schedule_same_period n _ _ Hsame).
    reflexivity.
  - rewrite Hs. exact Hr.
  - rewrite Hs. exact Hd.
  - rewrite Hs. apply switched_in_range. exact Hd.
  - exact Hl'.
Qed.
(** ** Facts about sequences of calls *)

Lemma perform_self (c : Call) (w : World) :
  self (exec (perform c) w) = performed c (clock w) (self w).
Proof.
  destruct c; simpl.
  - apply reset_self.
  - apply set_durations_self.
  - apply start_timer_self.
  - apply toggle_self.
  - apply tick_self.
  - apply switch_period_self.
  - unfold exec, acquire. destruct (locked w); reflexivity.
  - reflexivity.
  - apply start_thread_self.
Qed.

Lemma perform_goal (c : Call) (w : World) :
  goal (self (exec (perform c) w)) = last_goal [c] (goal (self w)).
Proof. rewrite perform_self. destruct c; reflexivity. Qed.

Lemma run_calls_goal (cs : list Call) :
  forall w : World, goal (self (run_calls cs w)) = last_goal cs (goal (self w)).
Proof.
  induction cs as [|c cs IH]; intros w; [reflexivity|].
  unfold run_calls in *. simpl fold_left. rewrite IH, perform_goal.
  destruct c; reflexivity.
Qed.

(** Every enabled call keeps the durations positive and the time within
    the active period. *)
Lemma performed_in_range (c : Call) (w : World) :
  durations_positive (self w) -> time_in_range (self w) -> enabled c w ->
  durations_positive (performed c (clock w) (self w)) /\
  time_in_range (performed c (clock w) (self w)).
Proof.
  intros Hd Hr He. destruct c; simpl in *.
  - split; [exact Hd|].
    destruct Hd as (Hw & _). unfold time_in_range, active_duration. simpl. lia.
  - split; [exact He|].
    destruct He as (Ha & _). unfold time_in_range, active_duration. simpl. lia.
  - split; [exact Hd | exact Hr].
  - split; [exact Hd | exact Hr].
  - split; [exact Hd|].
    unfold loop_guard in He. apply andb_prop in He. destruct He as [Hc _].
    apply Z.ltb_lt in Hc.
    unfold time_in_range in *.
    change (active_duration (ticked (self w))) with (active_duration (self w)).
    unfold ticked. simpl. lia.
  - split; [exact Hd|].
    unfold time_in_range. rewrite switched_current_time.
    pose proof (active_duration_positive (switched (clock w) (self w)) Hd).
    lia.
  - split; [exact Hd | exact Hr].
  - split; [exact Hd | exact Hr].
  - split; [exact Hd | exact Hr].
Qed.

Lemma reachable_in_range (w : World) :
  reachable w -> durations_positive (self w) /\ time_in_range (self w).
Proof.
  induction 1 as [a b c now Ha Hb Hc | w c Hw IH He].
  - unfold init. fold (exec reset (mkWorld (mkTimer a b c false "" [] 0 true 0) [] O now false)).
    rewrite reset_self. simpl.
    split; [repeat split; assumption|].
    unfold time_in_range, active_duration. simpl. lia.
  - rewrite perform_self. destruct IH as [Hd Hr].
    apply performed_in_range; assumption.
Qed.


(** ** Arithmetic of the elapsed fraction and of the session count *)

Lemma truediv_monotone (a b d : Z) :
  0 < d -> a <= b -> (inject_Z a / inject_Z d <= inject_Z b / inject_Z d)%Q.
Proof.
  intros Hd Hab. unfold Qdiv. apply Qmult_le_compat_r.
  - rewrite <- Zle_Qle. exact Hab.
  - apply Qinv_le_0_compat. change 0%Q with (inject_Z 0).
    rewrite <- Zle_Qle. lia.
Qed.

Lemma inject_Z_nonzero (d : Z) : d <> 0 -> ~ (inject_Z d == 0)%Q.
Proof.
  intros Hd H. apply Hd. change 0%Q with (inject_Z 0) in H.
  apply inject_Z_injective. exact H.
Qed.

(** Less time left, larger fraction, rounding included. *)
Lemma elapsed_fraction_monotone (t : PomodoroTimer) (c1 c2 : Z) :
  durations_positive t -> c2 <= c1 ->
  (elapsed_fraction (set_current_time c1 t)
   <= elapsed_fraction (set_current_time c2 t))%Q.
Proof.
  intros Hd Hc. unfold elapsed_fraction. simpl.
  destruct (is_work_period t) eqn:Hp.
  - apply round64_monotone. apply truediv_monotone; [apply Hd | lia].
  - change (current_break_duration (set_current_time c1 t))
      with (current_break_duration t).
    change (current_break_duration (set_current_time c2 t))
      with (current_break_duration t).
    unfold float_sub. apply round64_monotone.
    unfold Qminus. apply Qplus_le_compat; [apply Qle_refl|].
    apply Qopp_le_compat. apply round64_monotone.
    apply truediv_monotone; [|exact Hc].
    pose proof (active_duration_positive t Hd) as Ha.
    unfold active_duration in Ha. rewrite Hp in Ha. exact Ha.
Qed.

(** No time left, fraction one, exactly. *)
Lemma elapsed_fraction_at_zero (t : PomodoroTimer) :
  durations_positive t -> current_time t = 0 -> (elapsed_fraction t == 1)%Q.
Proof.
  intros Hd Hc. unfold elapsed_fraction. rewrite Hc.
  destruct (is_work_period t) eqn:Hp.
  - apply round64_one.
    rewrite Z.sub_0_r. unfold Qdiv. apply Qmult_inv_r.
    apply inject_Z_nonzero. destruct Hd as (Hw & _). lia.
  - unfold float_sub. apply round64_one.
    assert (E : (round64 (inject_Z 0 / inject_Z (current_break_duration t)) == 0)%Q).
    { apply round64_zero. unfold Qdiv. change (inject_Z 0) with 0%Q.
      apply Qmult_0_l. }
    rewrite E. reflexivity.
Qed.

Lemma ticked_as_set (t : PomodoroTimer) :
  t = set_current_time (current_time t) t.
Proof. destruct t; reflexivity. Qed.

(** Odd session counts select the short break. *)
Lemma odd_not_multiple_of_four (n : Z) :
  Z.odd n = true -> (n mod 4 =? 0) = false.
Proof.
  intros Ho. apply Z.odd_spec in Ho. destruct Ho as [m Hm].
  apply Z.eqb_neq. intros H4.
  pose proof (Z.div_mod n 4) as Hdm. lia.
Qed.

(** Period transitions after a [reset] keep the period flag equal to the
    parity of the session count. *)
Lemma parity_after_transitions (w : World) (n : nat) :
  let t := self (Nat.iter n (exec switch_period) (exec reset w)) in
  is_work_period t = Z.even (session_count t).
Proof.
  induction n as [|n IH]; simpl in *.
  - rewrite reset_self. reflexivity.
  - rewrite switch_period_self. unfold switched. simpl.
    rewrite IH, Z.add_1_r, Z.even_succ, Z.negb_even. reflexivity.
Qed.

(** ** The period state machine *)

Lemma started_fresh (work short_break long_break now : Z) (g : string) :
  work <> 0 ->
  exec (start_timer g) (snd (init work short_break long_break now))
  = mkWorld
      (started_object g now
         (reset_object (mkTimer work short_break long_break false "" [] 0 true 0)))
      ([time_update
          (reset_object (mkTimer work short_break long_break false "" [] 0 true 0))]
         ++ [session_change_signal "Work"]
         ++ [time_update
               (started_object g now
                  (reset_object
                     (mkTimer work short_break long_break false "" [] 0 true 0)))])
      1 now false.
Proof.
  intros Hw. unfold init, exec.
  rewrite reset_returns by exact Hw. simpl snd.
  rewrite start_timer_returns.
  - reflexivity.
  - exact Hw.
  - apply quotient_fits_at_start; [exact Hw | reflexivity].
  - reflexivity.
Qed.

(** C1 (the code departs from the claim): for all positive durations, a
    fresh timer that is started and left to run gives its first four breaks
    the short break duration; the fourth break is not a long one. *)
Theorem fourth_break_is_short (work short_break long_break now : Z) (g : string) :
  0 < work -> 0 < short_break -> 0 < long_break ->
  period_starts 8 (exec (start_timer g) (snd (init work short_break long_break now)))
  = Some [(false, short_break); (true, work);
          (false, short_break); (true, work);
          (false, short_break); (true, work);
          (false, short_break); (true, work)].
Proof.
  intros Hw Hs Hl.
  rewrite started_fresh by lia.
  rewrite period_starts_schedule.
  - vm_compute. reflexivity.
  - reflexivity.
  - repeat split; assumption.
  - unfold time_in_range, active_duration. simpl. lia.
  - reflexivity.
Qed.

(** The run of the example of the specification: two seconds of work, one of
    short break, three of long break. *)
Lemma fourth_break_is_short_witness :
  0 < 2 /\ 0 < 1 /\ 0 < 3 /\
  period_starts 8 (exec (start_timer "write spec") (snd (init 2 1 3 0)))
  = Some [(false, 1); (true, 2); (false, 1); (true, 2);
          (false, 1); (true, 2); (false, 1); (true, 2)].
Proof.
  split; [lia|]. split; [lia|]. split; [lia|].
  apply (fourth_break_is_short 2 1 3 0 "write spec"); lia.
Defined.

(** C2 (the code departs from the claim): a timer paused in the middle of
    its countdown does not resume on [toggle]: the call raises [TypeError]
    and starts no thread, although time, history and goal are as they
    were. *)
Theorem toggle_does_not_resume :
  is_running (self paused_world) = false /\
  current_time (self paused_world) = 1499 /\
  active_duration (self paused_world) = 1500 /\
  fst (toggle paused_world) = Raised TypeError /\
  started (exec toggle paused_world) = started paused_world /\
  current_time (self (exec toggle paused_world)) = 1499 /\
  session_history (self (exec toggle paused_world))
  = session_history (self paused_world) /\
  goal (self (exec toggle paused_world)) = goal (self paused_world).
Proof. vm_compute. repeat split; reflexivity. Qed.

(** The handler of the start/stop button calls [start_timer] only on a
    timer that is not running, which does not keep it from a live thread:
    pressed twice within a second while the default timer counts, it stops
    the timer and starts it again before the thread has looked at the flag.
    The second call appends its [Work] entry and is blocked on the lock,
    and the thread counts the period to its end. *)
Lemma stop_then_start_within_a_second :
  let w1 := exec (toggle_timer "write spec") counting_world in
  let w2 := exec (toggle_timer "second goal") w1 in
  fst (toggle_timer "write spec" counting_world) = Returned tt /\
  is_running (self w1) = false /\
  locked w1 = true /\
  fst (toggle_timer "second goal" w1) = Blocked /\
  is_running (self w2) = true /\
  map s_type (session_history (self w2)) = ["Work"%string; "Work"%string] /\
  started w2 = 1%nat /\
  exists w3 : World,
    run_timer_body (Z.to_nat (current_time (self w2))) w2
    = Some (Returned tt, w3) /\
    map s_type (session_history (self w3))
    = ["Work"%string; "Work"%string; "Break"%string] /\
    started w3 = 2%nat.
Proof.
  cbv zeta.
  split; [reflexivity|]. split; [reflexivity|]. split; [reflexivity|].
  split; [reflexivity|]. split; [reflexivity|]. split; [reflexivity|].
  split; [reflexivity|].
  eexists. split; [vm_compute; reflexivity|].
  split; reflexivity.
Qed.

(** C3, the claim fails: on the running default timer, whose countdown
    thread holds the lock, a second [start_timer] is neither a no-op nor
    rejected.  It appends a second [Work] entry at once and is then blocked
    on the lock; when the counting thread has ended its period and the call
    goes on, the history reads [Work], [Work], [Break], the timer is at the
    start of its break and three threads have been started. *)
Lemma start_timer_while_running_counterexample :
  let w1 := exec (start_timer "second goal") counting_world in
  is_running (self counting_world) = true /\
  locked counting_world = true /\
  fst (start_timer "second goal" counting_world) = Blocked /\
  List.length (session_history (self w1))
  = S (List.length (session_history (self counting_world))) /\
  (exists w2 : World,
      run_timer_body (Z.to_nat (current_time (self w1))) w1
      = Some (Returned tt, w2) /\
      map s_type (session_history (self w2))
      = ["Work"%string; "Work"%string; "Break"%string] /\
      current_time (self w2) = 300 /\
      started (exec start_thread w2) = 3%nat) /\
  ~ start_timer_guarded "second goal" counting_world.
Proof.
  intros w1.
  split; [reflexivity|]. split; [reflexivity|]. split; [reflexivity|].
  split; [reflexivity|].
  split.
  - eexists. split; [vm_compute; reflexivity|].
    split; [reflexivity|]. split; reflexivity.
  - intros H. destruct (H eq_refl) as (_ & _ & Hh).
    apply (f_equal (@List.length Session)) in Hh.
    vm_compute in Hh. discriminate Hh.
Qed.

(** C3, amended: [start_timer] has no check of [is_running] and none of a
    live countdown thread.  On a timer with positive durations whose
    countdown thread holds the lock, it stores the goal, appends a [Work]
    entry and sends its two signals at once, and is then blocked on the
    lock with no thread started; it stays blocked while the lock is held.
    The countdown goes on to the end of the period, whose thread starts the
    thread of the next period and gives the lock back; the call can then go
    on and starts one more thread. *)
Theorem start_timer_unguarded (g : string) (w : World) :
  durations_positive (self w) ->
  time_in_range (self w) ->
  locked w = true ->
  let w1 := exec (start_timer g) w in
  fst (start_timer g w) = Blocked /\
  is_running (self w1) = true /\
  goal (self w1) = g /\
  session_history (self w1)
  = session_history (self w) ++ [mkSession "Work" (clock w) g] /\
  emitted w1
  = emitted w ++ [session_change_signal "Work"; time_update (self w1)] /\
  started w1 = started w /\
  locked w1 = true /\
  start_thread w1 = (Blocked, w1) /\
  exists w2 : World,
    run_timer_body (Z.to_nat (current_time (self w1))) w1
    = Some (Returned tt, w2) /\
    locked w2 = false /\
    session_history (self w2)
    = session_history (self w)
        ++ [mkSession "Work" (clock w) g;
            mkSession (if is_work_period (self w) then "Break" else "Work")
                      (clock w + current_time (self w)) g] /\
    started w2 = S (started w) /\
    fst (start_thread w2) = Returned tt /\
    self (exec start_thread w2) = self w2 /\
    started (exec start_thread w2) = S (S (started w)).
Proof.
  intros Hd Hc Hl w1.
  assert (Ha : active_duration (self w) <> 0)
    by (apply Z.neq_sym, Z.lt_neq, active_duration_positive, Hd).
  assert (Hq : quotient_fits (self w)).
  { apply quotient_fits_in_range; [exact Hd|].
    unfold time_in_range in Hc. lia. }
  assert (E1 : start_timer g w
               = (Blocked,
                  mkWorld (started_object g (clock w) (self w))
                    (emitted w ++ [session_change_signal "Work"]
                       ++ [time_update (started_object g (clock w) (self w))])
                    (started w) (clock w) true))
    by (apply start_timer_blocked; assumption).
  assert (Ew : w1 = mkWorld (started_object g (clock w) (self w))
                      (emitted w ++ [session_change_signal "Work"]
                         ++ [time_update (started_object g (clock w) (self w))])
                      (started w) (clock w) true)
    by (unfold w1, exec; rewrite E1; reflexivity).
  rewrite E1. clearbody w1. subst w1.
  split; [reflexivity|]. split; [reflexivity|]. split; [reflexivity|].
  split; [reflexivity|]. split; [reflexivity|]. split; [reflexivity|].
  split; [reflexivity|].
  split; [apply start_thread_blocked; reflexivity|].
  set (w1 := mkWorld _ _ _ _ _).
  destruct (run_timer_body_returns w1 eq_refl Hd Hc)
    as (w2 & Hrun & Hs & Hst & Hlk & _ & _).
  exists w2. split; [exact Hrun|]. split; [exact Hlk|].
  split.
  { rewrite Hs. unfold switched, w1. simpl.
    rewrite <- app_assoc. simpl.
    destruct (is_work_period (self w)); reflexivity. }
  split; [exact Hst|].
  split; [rewrite start_thread_free by exact Hlk; reflexivity|].
  split; [apply start_thread_self|].
  unfold exec. rewrite start_thread_free by exact Hlk.
  simpl. rewrite Hst. reflexivity.
Qed.

(** A second [start_timer] while the first period of the default timer is
    being counted. *)
Lemma start_timer_unguarded_witness :
  durations_positive (self counting_world) /\
  time_in_range (self counting_world) /\
  locked counting_world = true /\
  fst (start_timer "second goal" counting_world) = Blocked.
Proof.
  assert (Hd : durations_positive (self counting_world))
    by (vm_compute; repeat split; reflexivity).
  assert (Hc : time_in_range (self counting_world))
    by (vm_compute; split; discriminate).
  split; [exact Hd|]. split; [exact Hc|]. split; [reflexivity|].
  apply (start_timer_unguarded "second goal" counting_world Hd Hc eq_refl).
Defined.

(** C4: with positive durations and the time left in range, the time
    update of every tick carries the value of
    [(work_duration - current_time) / work_duration] in a work period and of
    [1 - current_time / current_break_duration] in a break, taken at the
    time the tick leaves and as the interpreter computes them: the division
    of the two ints rounded to binary64, and in a break the subtraction
    rounded again.  With the rounding, that fraction does not decrease from
    one tick to the next nor, more generally, as the time left in a period
    decreases, and it is exactly one when no time is left. *)
Theorem elapsed_fraction_progress (w : World) :
  durations_positive (self w) ->
  time_in_range (self w) ->
  let t := self w in
  let t' := self (exec tick w) in
  fst (tick w) = Returned tt /\
  current_time t' = current_time t - 1 /\
  last (emitted (exec tick w)) finish_signal
  = update_signal (format_duration (current_time t')) (elapsed_fraction t') /\
  elapsed_fraction t'
  = (if is_work_period t
     then round64 (inject_Z (work_duration t - current_time t')
                   / inject_Z (work_duration t))
     else round64 (1 - round64 (inject_Z (current_time t')
                                / inject_Z (if negb (session_count t mod 4 =? 0)
                                            then short_break_duration t
                                            else long_break_duration t)))) /\
  update_time w
  = (Returned tt,
     with_signal (update_signal (format_duration (current_time t))
                                (elapsed_fraction t)) w) /\
  (elapsed_fraction t <= elapsed_fraction t')%Q /\
  (forall c1 c2 : Z,
      c2 <= c1 ->
      (elapsed_fraction (set_current_time c1 t)
       <= elapsed_fraction (set_current_time c2 t))%Q) /\
  (elapsed_fraction (set_current_time 0 t) == 1)%Q /\
  (current_time t' = 0 -> (elapsed_fraction t' == 1)%Q).
Proof.
  intros Hd Hc t t'.
  assert (Ht' : t' = ticked t) by apply tick_self.
  assert (Ha : active_duration t <> 0)
    by (apply Z.neq_sym, Z.lt_neq, active_duration_positive, Hd).
  assert (Hw : tick w = (Returned tt,
                         mkWorld (ticked t) (emitted w ++ tick_signals (ticked t))
                                 (started w) (clock w + 1) (locked w))).
  { apply tick_returns; [exact Ha|].
    apply quotient_fits_in_range; [exact Hd|].
    change (active_duration (ticked (self w))) with (active_duration (self w)).
    unfold time_in_range in Hc. unfold ticked. simpl. lia. }
  split; [rewrite Hw; reflexivity|].
  split; [rewrite Ht'; reflexivity|].
  split.
  { unfold exec. rewrite Hw. simpl emitted. rewrite Ht'.
    unfold tick_signals. rewrite app_assoc. apply last_last. }
  split.
  { rewrite Ht'. unfold elapsed_fraction, float_sub, ticked,
      current_break_duration.
    simpl. reflexivity. }
  split.
  { apply update_time_returns; [exact Ha|].
    apply quotient_fits_in_range; [exact Hd|].
    unfold time_in_range in Hc. unfold t. lia. }
  split.
  { rewrite Ht'. rewrite (ticked_as_set t) at 1. unfold ticked.
    apply elapsed_fraction_monotone; [exact Hd | lia]. }
  split.
  { intros c1 c2 Hc12. apply elapsed_fraction_monotone; assumption. }
  split.
  { apply elapsed_fraction_at_zero; [exact Hd | reflexivity]. }
  intros Hz. apply elapsed_fraction_at_zero; [|exact Hz].
  rewrite Ht'. exact Hd.
Qed.

(** The first tick of the running default timer: the fraction sent is the
    binary64 number nearest to [1/1500], not [1/1500]. *)
Lemma elapsed_fraction_progress_witness :
  durations_positive (self running_world) /\
  time_in_range (self running_world) /\
  last (emitted (exec tick running_world)) finish_signal
  = update_signal "24:59" (6148914691236517 # 9223372036854775808) /\
  (elapsed_fraction (self running_world)
   <= elapsed_fraction (self (exec tick running_world)))%Q.
Proof.
  assert (Hd : durations_positive (self running_world))
    by (vm_compute; repeat split; reflexivity).
  assert (Hc : time_in_range (self running_world))
    by (vm_compute; split; discriminate).
  split; [exact Hd|]. split; [exact Hc|].
  pose proof (elapsed_fraction_progress running_world Hd Hc) as H.
  cbv zeta in H.
  destruct H as (_ & _ & H3 & _ & _ & H6 & _).
  split; [|exact H6].
  rewrite H3. vm_compute. reflexivity.
Defined.

(** C5, the claim fails: a break of one minute runs to its end without
    notifying the user. *)
Lemma minute_break_counterexample :
  is_work_period (self minute_break_world) = false /\
  is_running (self minute_break_world) = true /\
  current_time (self minute_break_world) = 60 /\
  active_duration (self minute_break_world) = 60 /\
  notify_count (emitted (after_thread minute_break_world))
  = notify_count (emitted minute_break_world) /\
  is_work_period (self (after_thread minute_break_world)) = true /\
  ~ notified_once minute_break_world.
Proof.
  split; [reflexivity|]. split; [reflexivity|]. split; [reflexivity|].
  split; [reflexivity|]. split; [vm_compute; reflexivity|].
  split; [vm_compute; reflexivity|].
  intros H. destruct (H eq_refl eq_refl eq_refl) as (w' & Hrun & Hn).
  assert (Hw' : after_thread minute_break_world = w').
  { unfold after_thread. rewrite Hrun. reflexivity. }
  rewrite <- Hw' in Hn. vm_compute in Hn. discriminate Hn.
Qed.

(** C5, amended: a period of a running timer with positive durations and
    its time in range, whose thread gets the lock and is left to run to its
    end, notifies the user once if it is a break that has more than [60]
    seconds left and not at all otherwise (a work period, a break of a
    minute or less); the notification is sent by the tick that takes the
    time of a break to [60]. *)
Theorem notify_user_once_above_sixty (w : World) :
  is_running (self w) = true ->
  durations_positive (self w) ->
  time_in_range (self w) ->
  locked w = false ->
  (exists w' : World,
      run_thread w = Some (Returned tt, w') /\
      notify_count (emitted w')
      = (notify_count (emitted w)
         + (if negb (is_work_period (self w)) && (60 <? current_time (self w))%Z
            then 1 else 0))%nat) /\
  notify_count (emitted (exec tick w))
  = (notify_count (emitted w)
     + (if (current_time (self w) - 1 =? 60)%Z && negb (is_work_period (self w))
        then 1 else 0))%nat.
Proof.
  intros Hr Hd Hc Hl. split.
  - destruct (run_thread_returns w Hr Hd Hc Hl) as (w' & Hrun & _ & _ & _ & _ & Hn).
    exists w'. split; [exact Hrun | exact Hn].
  - unfold exec. rewrite tick_returns.
    + simpl emitted. rewrite notify_count_app, notify_count_tick_signals.
      reflexivity.
    + apply Z.neq_sym, Z.lt_neq, active_duration_positive, Hd.
    + apply quotient_fits_in_range; [exact Hd|].
      change (active_duration (ticked (self w))) with (active_duration (self w)).
      unfold time_in_range in Hc. unfold ticked. simpl. lia.
Qed.

(** A break of sixty-one seconds run to its end: one notification. *)
Lemma notify_user_once_above_sixty_witness :
  is_running (self longer_break_world) = true /\
  durations_positive (self longer_break_world) /\
  time_in_range (self longer_break_world) /\
  locked longer_break_world = false /\
  is_work_period (self longer_break_world) = false /\
  current_time (self longer_break_world) = 61 /\
  exists w' : World,
    run_thread longer_break_world = Some (Returned tt, w') /\
    notify_count (emitted w')
    = (notify_count (emitted longer_break_world) + 1)%nat.
Proof.
  assert (Hd : durations_positive (self longer_break_world))
    by (vm_compute; repeat split; reflexivity).
  assert (Hc : time_in_range (self longer_break_world))
    by (vm_compute; split; discriminate).
  split; [reflexivity|]. split; [exact Hd|]. split; [exact Hc|].
  split; [reflexivity|]. split; [reflexivity|]. split; [reflexivity|].
  exact (proj1 (notify_user_once_above_sixty longer_break_world
                  eq_refl Hd Hc eq_refl)).
Defined.
(** C6: in every state whose work duration is not zero, [reset] returns
    with [current_time] equal to [work_duration], [session_count] zero and
    [is_work_period] true, has sent exactly one signal, a time update, and
    has left [is_running], the history, the three durations, the goal and
    the threads as they were. *)
Theorem reset_spec (w : World) :
  work_duration (self w) <> 0 ->
  let w' := exec reset w in
  fst (reset w) = Returned tt /\
  current_time (self w') = work_duration (self w) /\
  session_count (self w') = 0 /\
  is_work_period (self w') = true /\
  emitted w'
  = emitted w ++ [update_signal (format_duration (work_duration (self w)))
                                (elapsed_fraction (self w'))] /\
  is_running (self w') = is_running (self w) /\
  session_history (self w') = session_history (self w) /\
  work_duration (self w') = work_duration (self w) /\
  short_break_duration (self w') = short_break_duration (self w) /\
  long_break_duration (self w') = long_break_duration (self w) /\
  goal (self w') = goal (self w) /\
  started w' = started w.
Proof.
  intros Hw w'. unfold w', exec.
  rewrite reset_returns by exact Hw.
  simpl. repeat split; reflexivity.
Qed.

(** [reset] on the paused default timer. *)
Lemma reset_spec_witness :
  work_duration (self paused_world) <> 0 /\
  current_time (self (exec reset paused_world)) = 1500.
Proof.
  assert (Hw : work_duration (self paused_world) <> 0)
    by (vm_compute; discriminate).
  split; [exact Hw|].
  apply (reset_spec paused_world Hw).
Defined.

(** C7: in every state a timer constructed with positive durations can
    reach by [reset], [set_durations] with positive arguments,
    [start_timer], [toggle], ticks of the countdown and period transitions,
    with the lock taken and given back in between, [current_time] lies
    between zero and the duration of the active period, and every such call
    made in that state leaves it so. *)
Theorem time_in_range_invariant (w : World) :
  reachable w ->
  0 <= current_time (self w) <= active_duration (self w) /\
  forall c : Call,
    enabled c w ->
    0 <= current_time (self (exec (perform c) w))
      <= active_duration (self (exec (perform c) w)).
Proof.
  intros Hw.
  destruct (reachable_in_range w Hw) as [Hd Hr].
  split; [exact Hr|].
  intros c He. rewrite perform_self.
  apply (performed_in_range c w Hd Hr He).
Qed.

(** The paused default timer is reachable and within range. *)
Lemma time_in_range_invariant_witness :
  reachable paused_world /\
  0 <= current_time (self paused_world) <= active_duration (self paused_world).
Proof.
  assert (Hr : reachable paused_world).
  { apply (reachable_call _ do_toggle); [|exact I].
    apply (reachable_call _ do_tick); [|reflexivity].
    apply (reachable_call _ (do_start_timer "write spec")); [|exact I].
    apply (reachable_init 1500 300 900 0); lia. }
  split; [exact Hr|].
  exact (proj1 (time_in_range_invariant paused_world Hr)).
Defined.

(** C8: on a timer that is not running, [toggle] sets [is_running] and then
    raises [TypeError]: the world it leaves differs from the one it found
    in that flag alone, so no thread was started and no signal sent. *)
Theorem toggle_not_atomic (w : World) :
  is_running (self w) = false ->
  fst (toggle w) = Raised TypeError /\
  is_running (self (exec toggle w)) = true /\
  exec toggle w = with_self (set_is_running true (self w)) w /\
  started (exec toggle w) = started w /\
  emitted (exec toggle w) = emitted w.
Proof.
  intros Hr. unfold exec. rewrite toggle_when_stopped by exact Hr.
  repeat split; reflexivity.
Qed.

(** [toggle] on the paused default timer. *)
Lemma toggle_not_atomic_witness :
  is_running (self paused_world) = false /\
  fst (toggle paused_world) = Raised TypeError.
Proof.
  split; [reflexivity|].
  apply (toggle_not_atomic paused_world eq_refl).
Defined.

(** C9: after a [reset] and any number of period transitions,
    [is_work_period] holds exactly when [session_count] is even; in a break
    the count is odd, so [session_count % 4 == 0] is false and the break
    duration selected is the short one. *)
Theorem break_session_count_odd (w : World) (n : nat) :
  let t := self (Nat.iter n (exec switch_period) (exec reset w)) in
  (is_work_period t = true <-> Z.even (session_count t) = true) /\
  (is_work_period t = false ->
   Z.odd (session_count t) = true /\
   (session_count t mod 4 =? 0) = false /\
   current_break_duration t = short_break_duration t).
Proof.
  pose proof (parity_after_transitions w n) as Hp. cbv zeta in *.
  set (t := self _) in *.
  split; [rewrite Hp; tauto|].
  intros Hb.
  assert (Ho : Z.odd (session_count t) = true).
  { rewrite <- Z.negb_even, <- Hp, Hb. reflexivity. }
  split; [exact Ho|].
  pose proof (odd_not_multiple_of_four _ Ho) as H4.
  split; [exact H4|].
  unfold current_break_duration. rewrite H4. reflexivity.
Qed.

(** C10: after any sequence of calls, the entry a period transition
    appends, [Work] or [Break], carries the goal given to the last
    [start_timer] (the goal the object had before the calls when there was
    none), and the transition leaves that goal in place. *)
Theorem history_goal_is_last_started (cs : list Call) (w : World) :
  let w1 := run_calls cs w in
  let w2 := exec switch_period w1 in
  session_history (self w2)
  = session_history (self w1)
      ++ [mkSession (if is_work_period (self w2) then "Work" else "Break")
                    (clock w1) (last_goal cs (goal (self w)))] /\
  goal (self w2) = last_goal cs (goal (self w)).
Proof.
  cbv zeta. rewrite switch_period_self, <- run_calls_goal.
  unfold switched. simpl. split; reflexivity.
Qed.
